(** * kerb_sts.auth: authenticators for the STS client

    A shallow embedding of [src/kerb_sts/auth.py].  The module shells out to
    the host's Kerberos tools ([klist], [kinit]) through [subprocess] and
    [pexpect], writes [os.environ], logs through [logging] and builds handler
    objects of [requests_kerberos] and [requests_ntlm].  Those effects are
    made explicit: a computation reads a [host] (what the machine answers),
    threads a [world] (what the process has done so far) and either returns a
    value or raises a Python exception.  Effects performed before an exception
    is raised stay in the world, as they do in Python.

    The library calls are modelled by what they do for this module:
    [subprocess.check_output] and [pexpect.spawn] record the process they
    start and ask the host how it ends, [logging] records the message,
    [os.environ] is a finite map.  A child that never terminates blocks the
    caller for ever and is outside the model. *)

From Stdlib Require Import ZArith Ascii String List Lia.
From stdpp Require Import base option list gmap strings.

Local Open Scope string_scope.
Local Open Scope list_scope.
Local Open Scope Z_scope.

(** ** Python values reaching the constructors

    The keyword arguments of [KerberosAuthenticator] default to [None] and
    are otherwise [str]: they are modelled as [option string].  The required
    arguments of the other two classes are [str]. *)

Definition pyval := option string.

(** Truth value of [None] and of a [str]: only a non-empty string is true. *)
Definition truthy (v : pyval) : bool :=
  match v with
  | None => false
  | Some s => negb (String.eqb s "")
  end.

(** [str(v)], as ['{}'.format(v)] renders an argument. *)
Definition py_str (v : pyval) : string :=
  match v with
  | None => "None"
  | Some s => s
  end.

(** [needle in hay] on strings. *)
Fixpoint contains (needle hay : string) : bool :=
  String.prefix needle hay ||
  match hay with
  | EmptyString => false
  | String _ rest => contains needle rest
  end.

(** The three characters the module and its libraries treat specially. *)
Definition backslash : ascii := "092"%char.
Definition singlequote : ascii := "039"%char.
Definition doublequote : ascii := "034"%char.

(** ** Exceptions

    All of them derive from [Exception]; [CalledProcessError] is the one
    [subprocess.check_output] raises on a non-zero return code, [OSError] the
    one it raises when the executable cannot be started, [ExceptionPexpect]
    and [TIMEOUT] are pexpect's, [AttributeError] is what [sendline(None)]
    ends in. *)

Inductive exn :=
| Exception (msg : string)
| CalledProcessError (returncode : Z) (cmd : list string)
| OSError (filename : string)
| ExceptionPexpect (msg : string)
| TIMEOUT
| AttributeError.

Definition is_Exception (e : exn) : bool := true.

Definition is_CalledProcessError (e : exn) : bool :=
  match e with
  | CalledProcessError _ _ => true
  | _ => false
  end.

(** ** Handler objects of the HTTP libraries *)

Inductive mutual_auth := REQUIRED | OPTIONAL | DISABLED.

Inductive session := Session (id : nat).

Inductive auth_handler :=
| HTTPKerberosAuth (mutual_authentication : mutual_auth) (hostname_override : pyval)
| HttpNtlmAuth (username : string) (password : string) (sess : session).

(** ** The world *)

Inductive level := INFO | ERROR.

(** How a child process is started: [pexpect.spawn] (on a pty, fed
    interactively) or [subprocess.check_output]. *)
Inductive launcher := Pty | Subprocess.

(** A call of the module that reaches outside: starting a process with an
    argument vector (recorded when the call is made, also when the program
    turns out to be missing), sending a line to an interactive child, and
    logging. *)
Inductive event :=
| Spawn (via : launcher) (argv : list string)
| Sendline (line : string)
| Log (lvl : level) (msg : string).

(** [environ] is [os.environ], [events] the calls made so far (oldest first),
    [heap] the handler objects allocated so far; a handler reference is its
    index in [heap]. *)
Record world := World {
  environ : gmap string string;
  events : list event;
  heap : list auth_handler
}.

(** What ends a pexpect session: no EOF within the timeout, a normal exit
    with a status, or death by a signal ([exitstatus] is then [None]). *)
Inductive pty_outcome := PtyTimeout | PtyExited (status : Z) | PtySignalled (sig : Z).

(** The machine the process runs on.  [which] tells whether an executable
    is found; the two oracles answer from the world at the time they are
    asked, which holds the spawn (and the lines sent) they answer for. *)
Record host := Host {
  os_name : string;
  getcwd : string;
  which : string -> bool;
  returncode_of : world -> Z;
  pty_outcome_of : world -> pty_outcome
}.

Inductive result (A : Type) :=
| Ok (a : A)
| Raise (e : exn).
Arguments Ok {A} a.
Arguments Raise {A} e.

Definition M (A : Type) : Type := host -> world -> result A * world.

Definition ret {A} (a : A) : M A := fun _ w => (Ok a, w).

Definition bind {A B} (m : M A) (k : A -> M B) : M B :=
  fun h w =>
    match m h w with
    | (Ok a, w') => k a h w'
    | (Raise e, w') => (Raise e, w')
    end.

Definition raise {A} (e : exn) : M A := fun _ w => (Raise e, w).

(** [try: body except cls as ex: handler ex]. *)
Definition try_except {A} (body : M A) (cls : exn -> bool) (handler : exn -> M A) : M A :=
  fun h w =>
    match body h w with
    | (Ok a, w') => (Ok a, w')
    | (Raise e, w') => if cls e then handler e h w' else (Raise e, w')
    end.

Definition ask : M host := fun h w => (Ok h, w).

(** The world once one more call has been made. *)
Definition after (w : world) (e : event) : world :=
  World (environ w) (events w ++ [e]) (heap w).

Definition emit (e : event) : M unit := fun _ w => (Ok tt, after w e).

Declare Scope py_scope.
Delimit Scope py_scope with py.
Notation "x <- m ;; k" := (bind m (fun x => k))
  (at level 100, m at next level, right associativity) : py_scope.
Notation "m ;;; k" := (bind m (fun _ => k))
  (at level 100, right associativity) : py_scope.
Local Open Scope py_scope.

(** ** The libraries the module calls *)

Module logging.

Definition info (msg : string) : M unit := emit (Log INFO msg).
Definition error (msg : string) : M unit := emit (Log ERROR msg).

End logging.

Module os.

(** [os.environ[k] = v]. *)
Definition environ_set (k v : string) : M unit :=
  fun _ w => (Ok tt, World (<[k := v]> (environ w)) (events w) (heap w)).

(** [os.path.join(a, b)] of [posixpath]: the module only joins paths off
    Windows. *)
Definition path_join (a b : string) : string :=
  if String.prefix "/" b then b
  else if String.eqb a "" || String.prefix "/" (String.rev a) then a +:+ b
  else a +:+ "/" +:+ b.

End os.

Module subprocess.

(** [subprocess.check_output(argv)]: [OSError] when the program cannot be
    started, [CalledProcessError] when it returns a non-zero code.  The
    output is not used by the module, so the call returns [tt]. *)
Definition check_output (argv : list string) : M unit :=
  emit (Spawn Subprocess argv) ;;;
  h <- ask ;;
  if which h (hd "" argv) then
    fun h w =>
      if returncode_of h w =? 0 then (Ok tt, w)
      else (Raise (CalledProcessError (returncode_of h w) argv), w)
  else raise (OSError (hd "" argv)).

End subprocess.

Module pexpect.

(** [str.isspace] on an ASCII character. *)
Definition isspace (c : ascii) : bool :=
  let n := N_of_ascii c in
  ((9 <=? n) && (n <=? 13) || (28 <=? n) && (n <=? 32))%N.

(** The states of the little state machine of [split_command_line]. *)
Inductive split_state :=
| state_basic
| state_esc
| state_singlequote
| state_doublequote
| state_whitespace.

Definition push (arg : string) (c : ascii) : string := arg +:+ String c "".

(** The loop of [pexpect.split_command_line]: [arg_list] and [arg] are its
    two accumulators, [state] its state variable. *)
Fixpoint split_loop (command_line : string) (arg_list : list string) (arg : string)
    (state : split_state) : list string :=
  match command_line with
  | EmptyString => if String.eqb arg "" then arg_list else arg_list ++ [arg]
  | String c rest =>
    match state with
    | state_basic | state_whitespace =>
      if Ascii.eqb c backslash then split_loop rest arg_list arg state_esc
      else if Ascii.eqb c singlequote then split_loop rest arg_list arg state_singlequote
      else if Ascii.eqb c doublequote then split_loop rest arg_list arg state_doublequote
      else if isspace c then
        match state with
        | state_whitespace => split_loop rest arg_list arg state_whitespace
        | _ => split_loop rest (arg_list ++ [arg]) "" state_whitespace
        end
      else split_loop rest arg_list (push arg c) state_basic
    | state_esc => split_loop rest arg_list (push arg c) state_basic
    | state_singlequote =>
      if Ascii.eqb c singlequote then split_loop rest arg_list arg state_basic
      else split_loop rest arg_list (push arg c) state_singlequote
    | state_doublequote =>
      if Ascii.eqb c doublequote then split_loop rest arg_list arg state_basic
      else split_loop rest arg_list (push arg c) state_doublequote
    end
  end.

Definition split_command_line (command_line : string) : list string :=
  split_loop command_line [] "" state_basic.

(** The child object: the arguments it was started with and, once closed,
    its exit status. *)
Record child := Child {
  args : list string;
  exitstatus : option Z
}.

(** [pexpect.spawn(command)] with no argument list: the command line is
    split into the program and its arguments, and the program is looked up
    on the path. *)
Definition spawn (command : string) : M child :=
  let argv := split_command_line command in
  emit (Spawn Pty argv) ;;;
  h <- ask ;;
  if which h (hd "" argv) then ret (Child argv None)
  else raise (ExceptionPexpect "The command was not found or was not executable").

(** [c.sendline(s)]: a [str] is written to the pty, [None] cannot be
    encoded. *)
Definition sendline (c : child) (s : pyval) : M unit :=
  match s with
  | None => raise AttributeError
  | Some line => emit (Sendline line)
  end.

(** [c.expect(pexpect.EOF)]. *)
Definition expect_EOF (c : child) : M unit :=
  fun h w =>
    match pty_outcome_of h w with
    | PtyTimeout => (Raise TIMEOUT, w)
    | _ => (Ok tt, w)
    end.

(** [c.close()]; the result is the child with [exitstatus] filled in. *)
Definition close (c : child) : M child :=
  fun h w =>
    match pty_outcome_of h w with
    | PtyExited n => (Ok (Child (args c) (Some n)), w)
    | _ => (Ok (Child (args c) None), w)
    end.

End pexpect.

(** ** class KerberosAuthenticator *)

(** The message of the exception raised on a bad exit status, where the
    principal is filled in, and the message the handler logs, which is the
    bare literal. *)
Definition error_for_principal (principal : string) : string :=
  "failed to generate a kerberos ticket for principal " +:+ principal.

Definition error_literal : string := "failed to generate a kerberos ticket for principal {}".

(** Allocation of a handler object: the reference returned is fresh. *)
Definition new (o : auth_handler) : M nat :=
  fun _ w => (Ok (length (heap w)), World (environ w) (events w) (heap w ++ [o])).

Module KerberosAuthenticator.

Record t := mk {
  kerb_hostname : pyval
}.

Definition __generate_kerberos_ticket_for_user (username password domain : pyval) : M unit :=
  try_except
    (let principal := py_str username +:+ "@" +:+ py_str domain in
     kinit <- pexpect.spawn ("kinit " +:+ principal) ;;
     pexpect.sendline kinit password ;;;
     pexpect.expect_EOF kinit ;;;
     kinit <- pexpect.close kinit ;;
     match pexpect.exitstatus kinit with
     | Some 0 => ret tt
     | _ => raise (Exception (error_for_principal principal))
     end)
    is_Exception
    (fun ex =>
       logging.error error_literal ;;;
       raise ex).

Definition __generate_kerberos_ticket : M unit :=
  try_except
    (subprocess.check_output ["klist"; "-s"])
    is_CalledProcessError
    (fun _ =>
       logging.info "no kerberos ticket found. running kinit" ;;;
       try_except
         (subprocess.check_output ["kinit"])
         is_CalledProcessError
         (fun err =>
            logging.error "failed to generate a kerberos ticket" ;;;
            raise err)).

Definition __init__ (kerb_hostname username password domain : pyval) : M t :=
  let self := mk (if truthy kerb_hostname then kerb_hostname else None) in
  (if truthy username
   then __generate_kerberos_ticket_for_user username password domain
   else __generate_kerberos_ticket) ;;;
  ret self.

Definition get_auth_handler (self : t) (sess : session) : M nat :=
  new (HTTPKerberosAuth OPTIONAL (kerb_hostname self)).

Definition get_auth_type : string := "kerberos".

End KerberosAuthenticator.

(** ** class NtlmAuthenticator *)

Module NtlmAuthenticator.

Record t := mk {
  username : string;
  password : string;
  domain : string
}.

Definition __init__ (username password domain : string) : M t :=
  ret (mk username password domain).

Definition get_auth_handler (self : t) (sess : session) : M nat :=
  new (HttpNtlmAuth
         (domain self +:+ String backslash "" +:+ username self)
         (password self)
         sess).

Definition get_auth_type : string := "ntlm".

End NtlmAuthenticator.

(** ** class KeytabAuthenticator *)

Module KeytabAuthenticator.

Record t := mk {
  username : string;
  keytab : string;
  domain : string
}.

Definition __init__ (username keytab domain : string) : M t :=
  let self := mk username keytab domain in
  h <- ask ;;
  if String.eqb (os_name h) "nt" then raise (Exception "keytab is not supported on Windows!")
  else
    let credentials_cache := os.path_join (getcwd h) "credentials_cache" in
    os.environ_set "KRB5CCNAME" credentials_cache ;;;
    try_except
      (subprocess.check_output
         ["kinit"; "-c"; credentials_cache; "-kt"; keytab; username +:+ "@" +:+ domain])
      is_CalledProcessError
      (fun _ => raise (Exception "could not generate a valid ticket for the given keytab")) ;;;
    ret self.

Definition get_auth_handler (self : t) (sess : session) : M nat :=
  new (HTTPKerberosAuth OPTIONAL None).

Definition get_auth_type : string := "keytab".

End KeytabAuthenticator.

(** ** The common interface

    [Authenticator] is the abstract base class; a strategy is an instance of
    one of its three subclasses, and the two methods dispatch on it.  A
    [KerberosAuthenticator] built without a username is the ambient variant,
    one built with a username the password variant. *)

Inductive Authenticator :=
| Kerberos (self : KerberosAuthenticator.t)
| Ntlm (self : NtlmAuthenticator.t)
| Keytab (self : KeytabAuthenticator.t).

Definition get_auth_handler (self : Authenticator) (sess : session) : M nat :=
  match self with
  | Kerberos k => KerberosAuthenticator.get_auth_handler k sess
  | Ntlm n => NtlmAuthenticator.get_auth_handler n sess
  | Keytab t => KeytabAuthenticator.get_auth_handler t sess
  end.

Definition get_auth_type (self : Authenticator) : string :=
  match self with
  | Kerberos _ => KerberosAuthenticator.get_auth_type
  | Ntlm _ => NtlmAuthenticator.get_auth_type
  | Keytab _ => KeytabAuthenticator.get_auth_type
  end.

(** ** Reading a trace *)

(** The argument vectors of the processes started, in order. *)
Definition spawned (evs : list event) : list (list string) :=
  omap (fun e => match e with Spawn _ argv => Some argv | _ => None end) evs.

(** The lines fed to interactive children. *)
Definition sent (evs : list event) : list string :=
  omap (fun e => match e with Sendline line => Some line | _ => None end) evs.

(** The messages logged at level ERROR. *)
Definition errors (evs : list event) : list string :=
  omap (fun e => match e with Log ERROR msg => Some msg | _ => None end) evs.

(** The arguments after the program name. *)
Definition positional (argv : list string) : list string := tl argv.

(** A character [split_command_line] copies to the current argument as it
    is: an ASCII character that is no white space, no quote, no backslash. *)
Definition plain_char (c : ascii) : bool :=
  (N_of_ascii c <? 128)%N
  && negb (Ascii.eqb c backslash || Ascii.eqb c singlequote
           || Ascii.eqb c doublequote || pexpect.isspace c).

Definition plain (s : string) : bool := forallb plain_char (list_ascii_of_string s).

(** A computation is quiet when it leaves [os.environ] and the heap as they
    were, whether it returns or raises. *)
Definition quiet {A} (m : M A) : Prop :=
  forall h w, environ (m h w).2 = environ w /\ heap (m h w).2 = heap w.

(** The four calls of the ambient path, in the order it makes them. *)
Definition klist_check : event := Spawn Subprocess ["klist"; "-s"].
Definition running_kinit : event := Log INFO "no kerberos ticket found. running kinit".
Definition kinit_fallback : event := Spawn Subprocess ["kinit"].
Definition kinit_failed : event := Log ERROR "failed to generate a kerberos ticket".

(** ** Some machines and worlds to run the module on *)

Definition fresh : world := World ∅ [] [].

(** A machine where every tool is installed, every [check_output] returns
    [rc] and every interactive child ends as [pty] says. *)
Definition machine (name cwd : string) (rc : Z) (pty : pty_outcome) : host :=
  Host name cwd (fun _ => true) (fun _ => rc) (fun _ => pty).

(** A POSIX machine without a ticket: [klist -s] returns 1, and [kinit]
    returns [rc]. *)
Definition no_ticket (rc : Z) : host :=
  Host "posix" "/home/alice" (fun _ => true)
    (fun w =>
       match last (events w) with
       | Some (Spawn _ ("klist" :: _)) => 1
       | _ => rc
       end)
    (fun _ => PtyExited 0).

(** A POSIX machine without a ticket on which the program [prog] is not
    installed: [klist -s] returns 1 and any other [check_output] returns
    [rc]. *)
Definition missing (prog : string) (rc : Z) : host :=
  Host "posix" "/home/alice" (fun p => negb (String.eqb p prog))
    (fun w =>
       match last (events w) with
       | Some (Spawn _ ("klist" :: _)) => 1
       | _ => rc
       end)
    (fun _ => PtyExited 0).

(** [c in s] for a character. *)
Definition occurs (c : ascii) (s : string) : bool :=
  existsb (Ascii.eqb c) (list_ascii_of_string s).

(** The identity string (the first argument of [HttpNtlmAuth]) of the
    handler a call of [get_auth_handler] returned; [None] when the call
    raised or returned another kind of handler. *)
Definition handler_identity (r : result nat * world) : option string :=
  match r with
  | (Ok ref, w) =>
    match heap w !! ref with
    | Some (HttpNtlmAuth account _ _) => Some account
    | _ => None
    end
  | (Raise _, _) => None
  end.

(** * Properties *)

(** ** Strings and command lines *)

Lemma append_cons (c : ascii) (s t : string) : String c s +:+ t = String c (s +:+ t).
Proof. reflexivity. Qed.

Lemma append_empty_l (s : string) : "" +:+ s = s.
Proof. reflexivity. Qed.

Lemma push_append (arg : string) (c : ascii) (rest : string) :
  pexpect.push arg c +:+ rest = arg +:+ String c rest.
Proof.
  unfold pexpect.push.
  induction arg as [|a arg IH]; [reflexivity|].
  rewrite !append_cons. by rewrite IH.
Qed.

Lemma plain_cons (c : ascii) (s : string) :
  plain (String c s) = true -> plain_char c = true /\ plain s = true.
Proof. unfold plain. simpl. intros H. by apply andb_prop in H. Qed.

Lemma plain_char_tests (c : ascii) :
  plain_char c = true ->
  Ascii.eqb c backslash = false /\ Ascii.eqb c singlequote = false
  /\ Ascii.eqb c doublequote = false /\ pexpect.isspace c = false.
Proof.
  unfold plain_char. intros H. apply andb_prop in H as [_ H]. apply negb_true_iff in H.
  repeat (apply orb_false_elim in H; destruct H as [H ?]).
  auto.
Qed.

(** Outside quotes and escapes, a run of plain characters is appended to
    the current argument, and the end of the line closes the argument. *)
Lemma split_loop_plain (s : string) :
  plain s = true ->
  forall arg_list arg state,
    state = pexpect.state_basic \/ state = pexpect.state_whitespace ->
    pexpect.split_loop s arg_list arg state =
    if String.eqb (arg +:+ s) "" then arg_list else arg_list ++ [arg +:+ s].
Proof.
  induction s as [|c s IH]; intros Hs arg_list arg state Hstate.
  - simpl. replace (arg +:+ "") with arg; [reflexivity|].
    clear. induction arg as [|a arg IH]; [reflexivity|].
    rewrite append_cons. by rewrite <- IH.
  - apply plain_cons in Hs as [Hc Hs].
    apply plain_char_tests in Hc as (Hb & Hq & Hd & Hw).
    assert (pexpect.split_loop (String c s) arg_list arg state =
            pexpect.split_loop s arg_list (pexpect.push arg c) pexpect.state_basic) as ->.
    { destruct Hstate as [-> | ->]; simpl; by rewrite Hb, Hq, Hd, Hw. }
    rewrite IH by auto. by rewrite push_append.
Qed.

(** The program name survives whatever follows it on the command line. *)
Lemma split_loop_hd (s : string) :
  forall arg_list arg state,
    arg_list <> [] ->
    hd "" (pexpect.split_loop s arg_list arg state) = hd "" arg_list.
Proof.
  assert (Hsnoc : forall (l : list string) x, l <> [] -> hd "" (l ++ [x]) = hd "" l).
  { intros [|y l] x Hl; [done | reflexivity]. }
  assert (Hne : forall (l : list string) x, l ++ [x] <> []).
  { intros [|y l] x; discriminate. }
  induction s as [|c s IH]; intros arg_list arg state Hl; simpl.
  - destruct (String.eqb arg ""); [reflexivity | by apply Hsnoc].
  - destruct state;
      repeat match goal with
             | |- context [if ?b then _ else _] => destruct b
             end;
      rewrite ?IH; auto; rewrite ?Hsnoc; auto.
Qed.

Lemma split_kinit_hd (principal : string) :
  hd "" (pexpect.split_command_line ("kinit " +:+ principal)) = "kinit".
Proof.
  unfold pexpect.split_command_line. rewrite !append_cons, append_empty_l.
  simpl. by rewrite split_loop_hd.
Qed.

Lemma split_kinit_plain (principal : string) :
  plain principal = true ->
  principal <> "" ->
  pexpect.split_command_line ("kinit " +:+ principal) = ["kinit"; principal].
Proof.
  intros Hp Hne.
  unfold pexpect.split_command_line. rewrite !append_cons, append_empty_l.
  simpl. rewrite split_loop_plain by auto.
  rewrite append_empty_l.
  apply String.eqb_neq in Hne. by rewrite Hne.
Qed.

Lemma principal_not_empty (username domain : string) : username +:+ "@" +:+ domain <> "".
Proof. destruct username; discriminate. Qed.

(** ** Traces *)

Lemma spawned_app (l1 l2 : list event) : spawned (l1 ++ l2) = spawned l1 ++ spawned l2.
Proof. apply omap_app. Qed.

Lemma events_after (w : world) (e : event) : events (after w e) = events w ++ [e].
Proof. reflexivity. Qed.

(** ** Ticket for a user: every way the interactive [kinit] can end *)

Lemma ticket_for_user_cases (username domain : pyval) (password : string) (h : host) (w : world) :
  let principal := py_str username +:+ "@" +:+ py_str domain in
  let w1 := after w (Spawn Pty (pexpect.split_command_line ("kinit " +:+ principal))) in
  let w2 := after w1 (Sendline password) in
  KerberosAuthenticator.__generate_kerberos_ticket_for_user username (Some password) domain h w =
  if which h "kinit" then
    match pty_outcome_of h w2 with
    | PtyExited 0 => (Ok tt, w2)
    | PtyTimeout => (Raise TIMEOUT, after w2 (Log ERROR error_literal))
    | _ => (Raise (Exception (error_for_principal principal)), after w2 (Log ERROR error_literal))
    end
  else
    (Raise (ExceptionPexpect "The command was not found or was not executable"),
     after w1 (Log ERROR error_literal)).
Proof.
  intros principal w1 w2. subst w2 w1 principal.
  cbv [KerberosAuthenticator.__generate_kerberos_ticket_for_user try_except bind pexpect.spawn ask emit ret raise
       pexpect.sendline pexpect.expect_EOF pexpect.close logging.error is_Exception
       pexpect.exitstatus error_literal].
  rewrite split_kinit_hd.
  destruct (which h "kinit"); [|reflexivity].
  destruct (pty_outcome_of h _) as [|[|n|n]|sig] eqn:Hout;
    cbv beta iota; rewrite ?Hout; reflexivity.
Qed.

Lemma init_with_username (kh password domain : pyval) (username : string) (h : host) (w : world) :
  username <> "" ->
  KerberosAuthenticator.__init__ kh (Some username) password domain h w =
  match KerberosAuthenticator.__generate_kerberos_ticket_for_user (Some username) password domain h w with
  | (Ok _, w') => (Ok (KerberosAuthenticator.mk (if truthy kh then kh else None)), w')
  | (Raise e, w') => (Raise e, w')
  end.
Proof.
  intros Hu. apply String.eqb_neq in Hu.
  unfold KerberosAuthenticator.__init__, bind, ret. simpl. by rewrite Hu.
Qed.

Lemma init_without_username (kh username password domain : pyval) (h : host) (w : world) :
  truthy username = false ->
  KerberosAuthenticator.__init__ kh username password domain h w =
  match KerberosAuthenticator.__generate_kerberos_ticket h w with
  | (Ok _, w') => (Ok (KerberosAuthenticator.mk (if truthy kh then kh else None)), w')
  | (Raise e, w') => (Raise e, w')
  end.
Proof.
  intros Hu. unfold KerberosAuthenticator.__init__, bind, ret. by rewrite Hu.
Qed.

(** What a password construction leaves in the trace: one spawn, of
    [kinit] with the principal, and then at most the password on the pty and
    an error record. *)
Lemma password_init_trace (kh : pyval) (username password domain : string) (h : host) (w : world) :
  username <> "" ->
  plain (username +:+ "@" +:+ domain) = true ->
  exists rest,
    events (KerberosAuthenticator.__init__ kh (Some username) (Some password) (Some domain) h w).2 =
      events w ++ Spawn Pty ["kinit"; username +:+ "@" +:+ domain] :: rest
    /\ spawned rest = []
    /\ sent rest = if which h "kinit" then [password] else [].
Proof.
  intros Hu Hp.
  rewrite init_with_username by done.
  rewrite ticket_for_user_cases. simpl py_str.
  rewrite split_kinit_plain by auto using principal_not_empty.
  destruct (which h "kinit").
  - destruct (pty_outcome_of h _) as [|[|n|n]|sig]; simpl;
      rewrite <- ?app_assoc; simpl; eexists; (split; [reflexivity|]); done.
  - simpl. rewrite <- ?app_assoc. simpl. eexists; (split; [reflexivity|]); done.
Qed.

(** C1 (the code at failing inputs): the principal is formatted unquoted
    into a command line that [pexpect.spawn] splits again.  For the user
    name [alice smith], [kinit] receives the two positional arguments
    [alice] and [smith@EXAMPLE.COM] instead of the one principal, and for a
    user name that starts with a dash it receives options.  The password is
    in both runs sent as a line to the child.  Keytab construction, given
    the same user name, passes the principal as one element of the argument
    vector. *)
Theorem C1_principal_is_split_into_arguments :
  spawned (events (KerberosAuthenticator.__init__ None (Some "alice smith") (Some "secret")
                     (Some "EXAMPLE.COM") (machine "posix" "/home/alice" 0 (PtyExited 0)) fresh).2)
    = [["kinit"; "alice"; "smith@EXAMPLE.COM"]]
  /\ positional ["kinit"; "alice"; "smith@EXAMPLE.COM"] <> ["alice smith@EXAMPLE.COM"]
  /\ sent (events (KerberosAuthenticator.__init__ None (Some "alice smith") (Some "secret")
                     (Some "EXAMPLE.COM") (machine "posix" "/home/alice" 0 (PtyExited 0)) fresh).2)
     = ["secret"]
  /\ spawned (events (KerberosAuthenticator.__init__ None (Some "-k -t /etc/krb5.keytab host/x")
                        (Some "secret") (Some "EXAMPLE.COM")
                        (machine "posix" "/home/alice" 0 (PtyExited 0)) fresh).2)
     = [["kinit"; "-k"; "-t"; "/etc/krb5.keytab"; "host/x@EXAMPLE.COM"]]
  /\ sent (events (KerberosAuthenticator.__init__ None (Some "-k -t /etc/krb5.keytab host/x")
                     (Some "secret") (Some "EXAMPLE.COM")
                     (machine "posix" "/home/alice" 0 (PtyExited 0)) fresh).2)
     = ["secret"]
  /\ spawned (events (KeytabAuthenticator.__init__ "alice smith" "/etc/alice.keytab" "EXAMPLE.COM"
                        (machine "posix" "/home/alice" 0 (PtyExited 0)) fresh).2)
     = [["kinit"; "-c"; "/home/alice/credentials_cache"; "-kt"; "/etc/alice.keytab";
         "alice smith@EXAMPLE.COM"]].
Proof.
  split; [reflexivity|]. split; [discriminate|]. repeat split.
Qed.

(** ** Ambient ticket: every way the check and the fallback can end *)

Lemma ambient_ticket_cases (h : host) (w : world) :
  let w1 := after w klist_check in
  let w3 := after (after w1 running_kinit) kinit_fallback in
  KerberosAuthenticator.__generate_kerberos_ticket h w =
  if which h "klist" then
    if returncode_of h w1 =? 0 then (Ok tt, w1)
    else if which h "kinit" then
      if returncode_of h w3 =? 0 then (Ok tt, w3)
      else (Raise (CalledProcessError (returncode_of h w3) ["kinit"]), after w3 kinit_failed)
    else (Raise (OSError "kinit"), w3)
  else (Raise (OSError "klist"), w1).
Proof.
  intros w1 w3. subst w3 w1.
  cbv [KerberosAuthenticator.__generate_kerberos_ticket try_except bind subprocess.check_output ask emit ret raise
       logging.info logging.error is_CalledProcessError hd
       klist_check running_kinit kinit_fallback kinit_failed].
  destruct (which h "klist"); [|reflexivity].
  destruct (returncode_of h _ =? 0); [reflexivity|].
  destruct (which h "kinit"); [|reflexivity].
  destruct (returncode_of h _ =? 0); reflexivity.
Qed.

(** C2: when no username is given and [klist -s] exits with status zero,
    construction returns the authenticator and the only thing it has done
    is that check: no ticket-init command is started. *)
Theorem C2_valid_ticket_is_reused
    (kh username password domain : pyval) (h : host) (w : world) :
  truthy username = false ->
  which h "klist" = true ->
  returncode_of h (after w (Spawn Subprocess ["klist"; "-s"])) = 0 ->
  KerberosAuthenticator.__init__ kh username password domain h w =
    (Ok (KerberosAuthenticator.mk (if truthy kh then kh else None)),
     after w (Spawn Subprocess ["klist"; "-s"]))
  /\ spawned (events (KerberosAuthenticator.__init__ kh username password domain h w).2) =
     spawned (events w) ++ [["klist"; "-s"]].
Proof.
  intros Hu Hk Hrc.
  rewrite init_without_username by done.
  rewrite ambient_ticket_cases, Hk. unfold klist_check. rewrite Hrc. simpl.
  split; [reflexivity|]. by rewrite spawned_app.
Qed.

Lemma C2_valid_ticket_is_reused_witness :
  KerberosAuthenticator.__init__ None None None None (machine "posix" "/home/alice" 0 PtyTimeout) fresh =
    (Ok (KerberosAuthenticator.mk None), after fresh (Spawn Subprocess ["klist"; "-s"]))
  /\ spawned (events (KerberosAuthenticator.__init__ None None None None
                        (machine "posix" "/home/alice" 0 PtyTimeout) fresh).2) =
     spawned (events fresh) ++ [["klist"; "-s"]].
Proof.
  apply (C2_valid_ticket_is_reused None None None None
           (machine "posix" "/home/alice" 0 PtyTimeout) fresh); reflexivity.
Defined.

(** C3: when no username is given and [klist -s] exits non-zero, [kinit]
    is started with no arguments, after an INFO record only.  If that
    [kinit] exits non-zero too, construction raises its
    [CalledProcessError] and the one error logged is about the failed
    init; if it exits with zero, construction succeeds and no error is
    logged at all. *)
Theorem C3_failed_check_falls_back_to_kinit
    (kh username password domain : pyval) (h : host) (w : world) :
  truthy username = false ->
  which h "klist" = true ->
  returncode_of h (after w klist_check) <> 0 ->
  let w3 := after (after (after w klist_check) running_kinit) kinit_fallback in
  let r := KerberosAuthenticator.__init__ kh username password domain h w in
  exists rest,
    events r.2 = events w ++ [klist_check; running_kinit; kinit_fallback] ++ rest
    /\ errors [klist_check; running_kinit; kinit_fallback] = []
    /\ (which h "kinit" = true -> returncode_of h w3 <> 0 ->
        r.1 = Raise (CalledProcessError (returncode_of h w3) ["kinit"])
        /\ rest = [kinit_failed])
    /\ (which h "kinit" = true -> returncode_of h w3 = 0 ->
        r.1 = Ok (KerberosAuthenticator.mk (if truthy kh then kh else None))
        /\ rest = []).
Proof.
  intros Hu Hk Hrc w3 r. subst r.
  rewrite init_without_username by done.
  rewrite ambient_ticket_cases, Hk.
  apply Z.eqb_neq in Hrc. rewrite Hrc. fold w3.
  assert (Hev : forall rest,
             events w ++ [klist_check; running_kinit; kinit_fallback] ++ rest =
             events w3 ++ rest).
  { intros rest. subst w3. simpl. by rewrite <- !app_assoc. }
  destruct (which h "kinit") eqn:Hkinit.
  - destruct (returncode_of h w3 =? 0) eqn:Hrc3.
    + exists []. apply Z.eqb_eq in Hrc3.
      split; [by rewrite Hev, app_nil_r|]. split; [done|]. split; [|done].
      intros _ Hne. by destruct Hne.
    + exists [kinit_failed]. apply Z.eqb_neq in Hrc3.
      split; [by rewrite Hev|]. split; [done|]. split; [done|].
      intros _ Heq. by destruct Hrc3.
  - exists []. split; [by rewrite Hev, app_nil_r|]. split; [done|]. split; discriminate.
Qed.

Lemma C3_failed_check_falls_back_to_kinit_witness :
  exists rest,
    events (KerberosAuthenticator.__init__ None None None None (no_ticket 1) fresh).2 =
      events fresh ++ [klist_check; running_kinit; kinit_fallback] ++ rest
    /\ errors [klist_check; running_kinit; kinit_fallback] = []
    /\ (which (no_ticket 1) "kinit" = true ->
        returncode_of (no_ticket 1)
          (after (after (after fresh klist_check) running_kinit) kinit_fallback) <> 0 ->
        (KerberosAuthenticator.__init__ None None None None (no_ticket 1) fresh).1 =
          Raise (CalledProcessError
                   (returncode_of (no_ticket 1)
                      (after (after (after fresh klist_check) running_kinit) kinit_fallback))
                   ["kinit"])
        /\ rest = [kinit_failed])
    /\ (which (no_ticket 1) "kinit" = true ->
        returncode_of (no_ticket 1)
          (after (after (after fresh klist_check) running_kinit) kinit_fallback) = 0 ->
        (KerberosAuthenticator.__init__ None None None None (no_ticket 1) fresh).1 =
          Ok (KerberosAuthenticator.mk None)
        /\ rest = []).
Proof.
  apply (C3_failed_check_falls_back_to_kinit None None None None (no_ticket 1) fresh).
  - reflexivity.
  - reflexivity.
  - discriminate.
Defined.

(** Both fallback outcomes on a machine without a ticket. *)
Example ambient_fallback_fails :
  KerberosAuthenticator.__init__ None None None None (no_ticket 1) fresh =
    (Raise (CalledProcessError 1 ["kinit"]),
     World ∅ [klist_check; running_kinit; kinit_fallback; kinit_failed] []).
Proof. reflexivity. Qed.

Example ambient_fallback_succeeds :
  KerberosAuthenticator.__init__ None None None None (no_ticket 0) fresh =
    (Ok (KerberosAuthenticator.mk None),
     World ∅ [klist_check; running_kinit; kinit_fallback] []).
Proof. reflexivity. Qed.

(** ** A failed interactive init *)

(** Whenever the interactive [kinit] ends with a non-zero status, the
    exception raised carries the principal, and the record logged is the
    bare literal, whatever the principal is. *)
Lemma nonzero_exit_raises_and_logs (kh : pyval) (username password domain : string)
    (h : host) (w : world) (n : Z) :
  username <> "" ->
  let principal := username +:+ "@" +:+ domain in
  let w2 := after (after w (Spawn Pty (pexpect.split_command_line ("kinit " +:+ principal))))
                  (Sendline password) in
  which h "kinit" = true ->
  pty_outcome_of h w2 = PtyExited n ->
  n <> 0 ->
  KerberosAuthenticator.__init__ kh (Some username) (Some password) (Some domain) h w =
    (Raise (Exception (error_for_principal principal)), after w2 (Log ERROR error_literal)).
Proof.
  intros Hu principal w2 Hk Hout Hn.
  rewrite init_with_username by done.
  rewrite ticket_for_user_cases. simpl py_str. fold principal. fold w2.
  rewrite Hk, Hout. by destruct n.
Qed.

(** C4 (the code at the failing input): [kinit alice@EXAMPLE.COM] exits
    with status 1.  The exception raised names the principal; the error
    record logged before it is the literal with its placeholder, in which
    the principal does not occur. *)
Theorem C4_error_record_lacks_the_principal :
  KerberosAuthenticator.__init__ None (Some "alice") (Some "secret") (Some "EXAMPLE.COM")
    (machine "posix" "/home/alice" 0 (PtyExited 1)) fresh =
    (Raise (Exception "failed to generate a kerberos ticket for principal alice@EXAMPLE.COM"),
     World ∅ [Spawn Pty ["kinit"; "alice@EXAMPLE.COM"];
              Sendline "secret";
              Log ERROR "failed to generate a kerberos ticket for principal {}"] [])
  /\ contains "alice@EXAMPLE.COM" "failed to generate a kerberos ticket for principal {}" = false
  /\ contains "alice@EXAMPLE.COM"
       "failed to generate a kerberos ticket for principal alice@EXAMPLE.COM" = true.
Proof. repeat split. Qed.

(** ** Keytab *)

Lemma path_join_credentials_cache (cwd : string) :
  os.path_join cwd "credentials_cache" =
  if String.eqb cwd "" || String.prefix "/" (String.rev cwd)
  then cwd +:+ "credentials_cache"
  else cwd +:+ "/credentials_cache".
Proof. reflexivity. Qed.

Lemma keytab_init_cases (username keytab domain : string) (h : host) (w : world) :
  let cache := os.path_join (getcwd h) "credentials_cache" in
  let argv := ["kinit"; "-c"; cache; "-kt"; keytab; username +:+ "@" +:+ domain] in
  let w1 := World (<["KRB5CCNAME" := cache]> (environ w)) (events w ++ [Spawn Subprocess argv])
                  (heap w) in
  KeytabAuthenticator.__init__ username keytab domain h w =
  if String.eqb (os_name h) "nt"
  then (Raise (Exception "keytab is not supported on Windows!"), w)
  else if which h "kinit" then
    if returncode_of h w1 =? 0 then (Ok (KeytabAuthenticator.mk username keytab domain), w1)
    else (Raise (Exception "could not generate a valid ticket for the given keytab"), w1)
  else (Raise (OSError "kinit"), w1).
Proof.
  intros cache argv w1. subst w1 argv cache.
  cbv [KeytabAuthenticator.__init__ try_except bind subprocess.check_output ask emit ret raise
       os.environ_set is_CalledProcessError hd after environ events heap].
  destruct (String.eqb (os_name h) "nt"); [reflexivity|].
  destruct (which h "kinit"); [|reflexivity].
  destruct (returncode_of h _ =? 0); reflexivity.
Qed.

(** C5: off Windows, Keytab construction computes the cache path as
    [credentials_cache] joined to the working directory, sets [KRB5CCNAME]
    to it, and starts exactly [kinit -c <cache> -kt <keytab> <username@domain>]. *)
Theorem C5_keytab_cache_path_and_kinit
    (username keytab domain : string) (h : host) (w : world) :
  os_name h <> "nt" ->
  let cache := os.path_join (getcwd h) "credentials_cache" in
  let w' := (KeytabAuthenticator.__init__ username keytab domain h w).2 in
  cache = (if String.eqb (getcwd h) "" || String.prefix "/" (String.rev (getcwd h))
           then getcwd h +:+ "credentials_cache"
           else getcwd h +:+ "/credentials_cache")
  /\ environ w' = <["KRB5CCNAME" := cache]> (environ w)
  /\ environ w' !! "KRB5CCNAME" = Some cache
  /\ events w' =
     events w ++ [Spawn Subprocess ["kinit"; "-c"; cache; "-kt"; keytab; username +:+ "@" +:+ domain]].
Proof.
  intros Hos cache w'. subst w'.
  rewrite keytab_init_cases. fold cache.
  apply String.eqb_neq in Hos. rewrite Hos.
  split; [apply path_join_credentials_cache|].
  destruct (which h "kinit"); [destruct (returncode_of h _ =? 0)|];
    simpl; (split; [reflexivity|]); (split; [apply lookup_insert_eq | reflexivity]).
Qed.

Lemma C5_keytab_cache_path_and_kinit_witness :
  "/home/alice/credentials_cache" = "/home/alice/credentials_cache"
  /\ environ (KeytabAuthenticator.__init__ "alice" "/etc/alice.keytab" "EXAMPLE.COM"
               (machine "posix" "/home/alice" 0 PtyTimeout) fresh).2 =
     <["KRB5CCNAME" := "/home/alice/credentials_cache"]> (environ fresh)
  /\ environ (KeytabAuthenticator.__init__ "alice" "/etc/alice.keytab" "EXAMPLE.COM"
               (machine "posix" "/home/alice" 0 PtyTimeout) fresh).2 !! "KRB5CCNAME" =
     Some "/home/alice/credentials_cache"
  /\ events (KeytabAuthenticator.__init__ "alice" "/etc/alice.keytab" "EXAMPLE.COM"
               (machine "posix" "/home/alice" 0 PtyTimeout) fresh).2 =
     events fresh ++
     [Spawn Subprocess ["kinit"; "-c"; "/home/alice/credentials_cache"; "-kt";
                        "/etc/alice.keytab"; "alice@EXAMPLE.COM"]].
Proof.
  apply (C5_keytab_cache_path_and_kinit "alice" "/etc/alice.keytab" "EXAMPLE.COM"
           (machine "posix" "/home/alice" 0 PtyTimeout) fresh).
  discriminate.
Defined.

(** C6: on Windows ([os.name] is [nt]) Keytab construction raises at once:
    the world is untouched, so no process was started, no variable set and
    nothing logged. *)
Theorem C6_keytab_refused_on_windows
    (username keytab domain : string) (h : host) (w : world) :
  os_name h = "nt" ->
  KeytabAuthenticator.__init__ username keytab domain h w =
    (Raise (Exception "keytab is not supported on Windows!"), w).
Proof.
  intros Hos. rewrite keytab_init_cases.
  apply String.eqb_eq in Hos. by rewrite Hos.
Qed.

Lemma C6_keytab_refused_on_windows_witness :
  KeytabAuthenticator.__init__ "alice" "C:\alice.keytab" "EXAMPLE.COM"
    (machine "nt" "C:\Users\alice" 0 PtyTimeout) fresh =
    (Raise (Exception "keytab is not supported on Windows!"), fresh).
Proof.
  apply (C6_keytab_refused_on_windows "alice" "C:\alice.keytab" "EXAMPLE.COM"
           (machine "nt" "C:\Users\alice" 0 PtyTimeout) fresh).
  reflexivity.
Defined.

(** ** What construction leaves behind *)

Create HintDb quiet.

Lemma quiet_ret {A} (a : A) : quiet (ret a).
Proof. by intros h w. Qed.

Lemma quiet_raise {A} (e : exn) : quiet (@raise A e).
Proof. by intros h w. Qed.

Lemma quiet_ask : quiet ask.
Proof. by intros h w. Qed.

Lemma quiet_emit (e : event) : quiet (emit e).
Proof. by intros h w. Qed.

Lemma quiet_bind {A B} (m : M A) (k : A -> M B) :
  quiet m -> (forall a, quiet (k a)) -> quiet (bind m k).
Proof.
  intros Hm Hk h w. unfold bind.
  destruct (Hm h w) as [He Hh]. destruct (m h w) as [[a|e] w1]; simpl in *.
  - destruct (Hk a h w1) as [He' Hh']. by rewrite He', Hh'.
  - done.
Qed.

Lemma quiet_try_except {A} (body : M A) (cls : exn -> bool) (handler : exn -> M A) :
  quiet body -> (forall e, quiet (handler e)) -> quiet (try_except body cls handler).
Proof.
  intros Hb Hh h w. unfold try_except.
  destruct (Hb h w) as [He Hp]. destruct (body h w) as [[a|e] w1]; simpl in *; [done|].
  destruct (cls e); [|done].
  destruct (Hh e h w1) as [He' Hp']. by rewrite He', Hp'.
Qed.

Lemma quiet_if {A} (b : bool) (m1 m2 : M A) : quiet m1 -> quiet m2 -> quiet (if b then m1 else m2).
Proof. by destruct b. Qed.

Lemma quiet_check_output (argv : list string) : quiet (subprocess.check_output argv).
Proof.
  unfold subprocess.check_output.
  apply quiet_bind; [apply quiet_emit|]. intros _.
  apply quiet_bind; [apply quiet_ask|]. intros h0.
  apply quiet_if; [|apply quiet_raise].
  intros h w. by destruct (returncode_of h w =? 0).
Qed.

Lemma quiet_spawn (command : string) : quiet (pexpect.spawn command).
Proof.
  unfold pexpect.spawn.
  apply quiet_bind; [apply quiet_emit|]. intros _.
  apply quiet_bind; [apply quiet_ask|]. intros h0.
  apply quiet_if; [apply quiet_ret | apply quiet_raise].
Qed.

Lemma quiet_sendline (c : pexpect.child) (s : pyval) : quiet (pexpect.sendline c s).
Proof. destruct s; [apply quiet_emit | apply quiet_raise]. Qed.

Lemma quiet_expect_EOF (c : pexpect.child) : quiet (pexpect.expect_EOF c).
Proof. intros h w. unfold pexpect.expect_EOF. by destruct (pty_outcome_of h w). Qed.

Lemma quiet_close (c : pexpect.child) : quiet (pexpect.close c).
Proof. intros h w. unfold pexpect.close. by destruct (pty_outcome_of h w). Qed.

#[local] Hint Resolve quiet_ret quiet_raise quiet_ask quiet_emit quiet_check_output
  quiet_spawn quiet_sendline quiet_expect_EOF quiet_close : quiet.
#[local] Hint Extern 2 (quiet (bind _ _)) => apply quiet_bind; [|intros ?] : quiet.
#[local] Hint Extern 2 (quiet (try_except _ _ _)) => apply quiet_try_except; [|intros ?] : quiet.
#[local] Hint Extern 2 (quiet (if _ then _ else _)) => apply quiet_if : quiet.

Lemma quiet_ticket_for_user (username password domain : pyval) :
  quiet (KerberosAuthenticator.__generate_kerberos_ticket_for_user username password domain).
Proof.
  unfold KerberosAuthenticator.__generate_kerberos_ticket_for_user, logging.error.
  apply quiet_try_except; [|intros ?; auto with quiet].
  apply quiet_bind; [auto with quiet|]. intros c.
  apply quiet_bind; [auto with quiet|]. intros _.
  apply quiet_bind; [auto with quiet|]. intros _.
  apply quiet_bind; [auto with quiet|]. intros c'.
  destruct (pexpect.exitstatus c') as [[| |]|]; auto with quiet.
Qed.

Lemma quiet_ambient_ticket : quiet KerberosAuthenticator.__generate_kerberos_ticket.
Proof. unfold KerberosAuthenticator.__generate_kerberos_ticket, logging.info, logging.error. auto 10 with quiet. Qed.

Lemma quiet_kerberos_init (kh username password domain : pyval) :
  quiet (KerberosAuthenticator.__init__ kh username password domain).
Proof.
  unfold KerberosAuthenticator.__init__.
  apply quiet_bind; [|intros _; apply quiet_ret].
  apply quiet_if; [apply quiet_ticket_for_user | apply quiet_ambient_ticket].
Qed.

(** C7 (amended): NTLM construction always returns the authenticator and
    changes nothing.  Password construction never changes the environment
    or the heap, and returns only when the interactive [kinit] was started
    and exited with status zero.  Keytab construction on Windows raises and
    changes nothing; off Windows it leaves [KRB5CCNAME] set to the cache
    path whether it returns or raises, and it returns only when [kinit] was
    started and returned zero. *)
Theorem C7_construction_outcomes
    (kh : pyval) (username password domain keytab : string) (h : host) (w : world) :
  let cache := os.path_join (getcwd h) "credentials_cache" in
  let principal := username +:+ "@" +:+ domain in
  let ntlm := NtlmAuthenticator.__init__ username password domain h w in
  let pwd := KerberosAuthenticator.__init__ kh (Some username) (Some password) (Some domain) h w in
  let kt := KeytabAuthenticator.__init__ username keytab domain h w in
  ntlm = (Ok (NtlmAuthenticator.mk username password domain), w)
  /\ (environ pwd.2 = environ w /\ heap pwd.2 = heap w)
  /\ (username <> "" -> forall self, pwd.1 = Ok self ->
      which h "kinit" = true
      /\ pty_outcome_of h
           (after (after w (Spawn Pty (pexpect.split_command_line ("kinit " +:+ principal))))
                  (Sendline password)) = PtyExited 0)
  /\ (os_name h = "nt" -> kt = (Raise (Exception "keytab is not supported on Windows!"), w))
  /\ (os_name h <> "nt" ->
      environ kt.2 = <["KRB5CCNAME" := cache]> (environ w) /\ heap kt.2 = heap w)
  /\ (forall self, kt.1 = Ok self ->
      self = KeytabAuthenticator.mk username keytab domain
      /\ os_name h <> "nt" /\ which h "kinit" = true /\ returncode_of h kt.2 = 0).
Proof.
  intros cache principal ntlm pwd kt.
  split; [reflexivity|].
  split; [apply quiet_kerberos_init|].
  split.
  { intros Hu self. subst pwd.
    rewrite init_with_username by done.
    rewrite ticket_for_user_cases. simpl py_str. fold principal.
    destruct (which h "kinit"); [|discriminate].
    destruct (pty_outcome_of h _) as [|[|n|n]|sig]; simpl; by try discriminate. }
  subst kt. rewrite keytab_init_cases. fold cache.
  split; [|split].
  - intros Hos. apply String.eqb_eq in Hos. by rewrite Hos.
  - intros Hos. apply String.eqb_neq in Hos. rewrite Hos.
    destruct (which h "kinit"); [destruct (returncode_of h _ =? 0)|]; done.
  - intros self.
    destruct (String.eqb (os_name h) "nt") eqn:Hos; [discriminate|].
    apply String.eqb_neq in Hos.
    destruct (which h "kinit"); [|discriminate].
    destruct (returncode_of h _ =? 0) eqn:Hrc; [|discriminate].
    simpl. intros [= <-]. apply Z.eqb_eq in Hrc. done.
Qed.

Lemma C7_construction_outcomes_witness :
  environ (KeytabAuthenticator.__init__ "alice" "/etc/alice.keytab" "EXAMPLE.COM"
             (machine "posix" "/home/alice" 1 PtyTimeout) fresh).2 =
    <["KRB5CCNAME" := "/home/alice/credentials_cache"]> (environ fresh)
  /\ heap (KeytabAuthenticator.__init__ "alice" "/etc/alice.keytab" "EXAMPLE.COM"
             (machine "posix" "/home/alice" 1 PtyTimeout) fresh).2 = heap fresh.
Proof.
  apply (C7_construction_outcomes None "alice" "secret" "EXAMPLE.COM" "/etc/alice.keytab"
           (machine "posix" "/home/alice" 1 PtyTimeout) fresh).
  discriminate.
Defined.

(** C7 as stated fails: a Keytab construction whose [kinit] returns 1
    raises, and [KRB5CCNAME], unset before, is set afterwards. *)
Lemma C7_counterexample :
  (KeytabAuthenticator.__init__ "alice" "/etc/alice.keytab" "EXAMPLE.COM"
     (machine "posix" "/home/alice" 1 PtyTimeout) fresh).1 =
    Raise (Exception "could not generate a valid ticket for the given keytab")
  /\ environ fresh !! "KRB5CCNAME" = None
  /\ environ (KeytabAuthenticator.__init__ "alice" "/etc/alice.keytab" "EXAMPLE.COM"
                (machine "posix" "/home/alice" 1 PtyTimeout) fresh).2 !! "KRB5CCNAME" =
     Some "/home/alice/credentials_cache"
  /\ environ (KeytabAuthenticator.__init__ "alice" "/etc/alice.keytab" "EXAMPLE.COM"
                (machine "posix" "/home/alice" 1 PtyTimeout) fresh).2 <> environ fresh.
Proof.
  split; [reflexivity|]. split; [reflexivity|].
  assert (Hset : environ (KeytabAuthenticator.__init__ "alice" "/etc/alice.keytab" "EXAMPLE.COM"
                            (machine "posix" "/home/alice" 1 PtyTimeout) fresh).2
                   !! "KRB5CCNAME" = Some "/home/alice/credentials_cache").
  { rewrite keytab_init_cases. simpl. apply lookup_insert_eq. }
  split; [exact Hset|].
  intros Heq. rewrite Heq in Hset. discriminate.
Qed.

(** ** Handlers *)

(** C8: NTLM construction returns the three inputs stored and leaves the
    world as it was, so it starts no process; [get_auth_handler] allocates
    an [HttpNtlmAuth] built from [domain\username], the stored password and
    the session it is given.  For [bob] in [CORP] the identity is
    [CORP\bob]. *)
Theorem C8_ntlm_stores_inputs_and_formats_identity
    (username password domain : string) (sess : session) (h : host) (w : world) :
  let self := NtlmAuthenticator.mk username password domain in
  NtlmAuthenticator.__init__ username password domain h w = (Ok self, w)
  /\ NtlmAuthenticator.get_auth_handler self sess h w =
     (Ok (length (heap w)),
      World (environ w) (events w)
            (heap w ++ [HttpNtlmAuth (domain +:+ "\" +:+ username) password sess]))
  /\ heap (NtlmAuthenticator.get_auth_handler self sess h w).2 !! length (heap w) =
     Some (HttpNtlmAuth (domain +:+ "\" +:+ username) password sess)
  /\ NtlmAuthenticator.get_auth_handler (NtlmAuthenticator.mk "bob" password "CORP") sess h w =
     (Ok (length (heap w)),
      World (environ w) (events w) (heap w ++ [HttpNtlmAuth "CORP\bob" password sess])).
Proof.
  intros self. split; [reflexivity|]. split; [reflexivity|]. split; [|reflexivity].
  unfold NtlmAuthenticator.get_auth_handler, new. simpl.
  by rewrite list_lookup_middle.
Qed.

(** The object each strategy's [get_auth_handler] constructs. *)
Lemma get_auth_handler_allocates (self : Authenticator) (sess : session) (h : host) (w : world) :
  exists o,
    get_auth_handler self sess h w =
    (Ok (length (heap w)), World (environ w) (events w) (heap w ++ [o])).
Proof. destruct self; eexists; reflexivity. Qed.

(** C9: two calls of [get_auth_handler] on one strategy return two
    different references to two handler objects of the same content; each
    object can be overwritten without the other changing; and the calls add
    nothing to the trace (no process is started) and leave the environment
    alone.  The strategy is an immutable value the method only reads. *)
Theorem C9_two_handlers_no_process
    (self : Authenticator) (sess : session) (h : host) (w : world) :
  exists a1 a2 o w1 w2,
    get_auth_handler self sess h w = (Ok a1, w1)
    /\ get_auth_handler self sess h w1 = (Ok a2, w2)
    /\ a1 <> a2
    /\ heap w2 = heap w ++ [o; o]
    /\ heap w2 !! a1 = Some o
    /\ heap w2 !! a2 = Some o
    /\ (forall o', <[a1 := o']> (heap w2) !! a2 = Some o)
    /\ (forall o', <[a2 := o']> (heap w2) !! a1 = Some o)
    /\ events w2 = events w
    /\ spawned (events w2) = spawned (events w)
    /\ environ w2 = environ w.
Proof.
  set (o := match self with
            | Kerberos k => HTTPKerberosAuth OPTIONAL (KerberosAuthenticator.kerb_hostname k)
            | Ntlm n => HttpNtlmAuth (NtlmAuthenticator.domain n +:+ "\" +:+ NtlmAuthenticator.username n)
                                     (NtlmAuthenticator.password n) sess
            | Keytab _ => HTTPKerberosAuth OPTIONAL None
            end).
  set (w1 := World (environ w) (events w) (heap w ++ [o])).
  set (w2 := World (environ w) (events w) (heap w1 ++ [o])).
  exists (length (heap w)), (length (heap w1)), o, w1, w2.
  assert (Hlen : length (heap w1) = S (length (heap w))).
  { subst w1. simpl. rewrite length_app. simpl. lia. }
  assert (Hh2 : heap w2 = heap w ++ [o; o]).
  { subst w2 w1. simpl. by rewrite <- app_assoc. }
  assert (H1 : heap w2 !! length (heap w) = Some o).
  { rewrite Hh2. by rewrite list_lookup_middle. }
  assert (H2 : heap w2 !! length (heap w1) = Some o).
  { subst w2. simpl. by rewrite list_lookup_middle. }
  split; [by destruct self|]. split; [by destruct self|].
  split; [lia|]. split; [done|]. split; [done|]. split; [done|].
  split; [intros o'; rewrite list_lookup_insert_ne by lia; done|].
  split; [intros o'; rewrite list_lookup_insert_ne by lia; done|].
  done.
Qed.

(** ** Falsy arguments of [KerberosAuthenticator] *)

(** C10: an empty user name takes the ambient path: the construction is
    the one made with no username, password or domain at all, it is the
    ambient routine followed by the return of the authenticator, its first
    call is [klist -s], and it feeds no line to any child.  An empty host
    name override gives the authenticator built with no override, whose
    [kerb_hostname] is [None]. *)
Theorem C10_empty_username_and_hostname
    (kh username password domain : pyval) (h : host) (w : world) :
  KerberosAuthenticator.__init__ kh (Some "") password domain h w =
    KerberosAuthenticator.__init__ kh None None None h w
  /\ (KerberosAuthenticator.__init__ kh (Some "") password domain h w).2 =
     (KerberosAuthenticator.__generate_kerberos_ticket h w).2
  /\ (exists rest,
        events (KerberosAuthenticator.__init__ kh (Some "") password domain h w).2 =
          events w ++ klist_check :: rest
        /\ sent rest = []
        /\ Forall (fun argv => argv = ["kinit"]) (spawned rest))
  /\ KerberosAuthenticator.__init__ (Some "") username password domain h w =
     KerberosAuthenticator.__init__ None username password domain h w
  /\ match (KerberosAuthenticator.__init__ (Some "") username password domain h w).1 with
     | Ok self => KerberosAuthenticator.kerb_hostname self = None
     | Raise _ => True
     end.
Proof.
  split; [reflexivity|].
  split.
  { rewrite init_without_username by done. by destruct (KerberosAuthenticator.__generate_kerberos_ticket h w) as [[]]. }
  split.
  { rewrite init_without_username by done. rewrite ambient_ticket_cases.
    destruct (which h "klist").
    - destruct (returncode_of h _ =? 0).
      + exists []. simpl. by repeat split.
      + destruct (which h "kinit"); [destruct (returncode_of h _ =? 0)|]; simpl;
          rewrite <- ?app_assoc; simpl; eexists;
          (split; [reflexivity|]); (split; [reflexivity|]); by repeat constructor.
    - exists []. simpl. by repeat split. }
  split; [reflexivity|].
  unfold KerberosAuthenticator.__init__, bind, ret. simpl.
  destruct (if truthy username then _ else _) as [[]]; done.
Qed.

(** * Further properties of the module *)

(** ** More on strings *)

Lemma plain_app (a b : string) : plain (a +:+ b) = plain a && plain b.
Proof.
  unfold plain. induction a as [|c a IH]; [reflexivity|].
  rewrite append_cons. simpl. by rewrite IH, andb_assoc.
Qed.

(** A string is cut in one way only at the first occurrence of a
    separator. *)
Lemma append_sep_inj (c : ascii) (a1 a2 b1 b2 : string) :
  occurs c a1 = false ->
  occurs c a2 = false ->
  a1 +:+ String c b1 = a2 +:+ String c b2 ->
  a1 = a2 /\ b1 = b2.
Proof.
  unfold occurs. revert a2.
  induction a1 as [|x a1 IH]; intros [|y a2] H1 H2 Heq.
  - rewrite !append_empty_l in Heq. by injection Heq as ->.
  - rewrite append_empty_l, append_cons in Heq. injection Heq as -> _.
    simpl in H2. by rewrite Ascii.eqb_refl in H2.
  - rewrite append_empty_l, append_cons in Heq. injection Heq as -> _.
    simpl in H1. by rewrite Ascii.eqb_refl in H1.
  - rewrite !append_cons in Heq. injection Heq as -> Heq.
    simpl in H1, H2. apply orb_false_elim in H1 as [_ H1]. apply orb_false_elim in H2 as [_ H2].
    destruct (IH a2 H1 H2 Heq) as [-> ->]. done.
Qed.

Lemma errors_app (l1 l2 : list event) : errors (l1 ++ l2) = errors l1 ++ errors l2.
Proof. apply omap_app. Qed.

Lemma truthy_Some (v : pyval) : truthy v = true -> exists s, v = Some s /\ s <> "".
Proof.
  destruct v as [s|]; [|discriminate]. simpl. intros H. exists s. split; [done|].
  apply String.eqb_neq. by apply negb_true_iff.
Qed.

(** ** Password construction in full *)

(** The interactive [kinit] when no password was given: the child is
    started, nothing can be sent to it, and the failure is logged. *)
Lemma ticket_for_user_no_password (username domain : pyval) (h : host) (w : world) :
  let principal := py_str username +:+ "@" +:+ py_str domain in
  let w1 := after w (Spawn Pty (pexpect.split_command_line ("kinit " +:+ principal))) in
  KerberosAuthenticator.__generate_kerberos_ticket_for_user username None domain h w =
  (Raise (if which h "kinit" then AttributeError
          else ExceptionPexpect "The command was not found or was not executable"),
   after w1 (Log ERROR error_literal)).
Proof.
  intros principal w1. subst w1 principal.
  cbv [KerberosAuthenticator.__generate_kerberos_ticket_for_user try_except bind pexpect.spawn
       ask emit ret raise pexpect.sendline logging.error is_Exception].
  rewrite split_kinit_hd.
  by destruct (which h "kinit").
Qed.

(** The trace of any construction with a user name: the spawn of the
    split command line, then whatever [rest] follows; [rest] starts no
    process and holds one error record exactly when construction raises. *)
Lemma password_init_shape (kh username password domain : pyval) (h : host) (w : world) :
  truthy username = true ->
  let r := KerberosAuthenticator.__init__ kh username password domain h w in
  exists rest,
    events r.2 =
      events w ++
      Spawn Pty (pexpect.split_command_line
                   ("kinit " +:+ py_str username +:+ "@" +:+ py_str domain)) :: rest
    /\ spawned rest = []
    /\ errors rest = match r.1 with Ok _ => [] | Raise _ => [error_literal] end
    /\ sent rest = match password with
                   | Some pw => if which h "kinit" then [pw] else []
                   | None => []
                   end.
Proof.
  intros Hu r. subst r.
  destruct (truthy_Some username Hu) as (u & -> & Hne).
  rewrite init_with_username by done.
  destruct password as [pw|].
  - rewrite ticket_for_user_cases.
    destruct (which h "kinit").
    + destruct (pty_outcome_of h _) as [|[|n|n]|sig]; simpl;
        rewrite <- ?app_assoc; simpl; eexists; (split; [reflexivity|]); done.
    + simpl. rewrite <- ?app_assoc. simpl. eexists; (split; [reflexivity|]); done.
  - rewrite ticket_for_user_no_password. simpl.
    rewrite <- ?app_assoc. simpl. eexists; (split; [reflexivity|]).
    by destruct (which h "kinit").
Qed.

(** X1: a construction with a user name and a password returns exactly
    when [kinit] could be started and ended with exit status 0; a timeout,
    a non-zero status and a death by signal all make it raise. *)
Theorem X1_password_init_succeeds_iff
    (kh domain : pyval) (username password : string) (h : host) (w : world) :
  username <> "" ->
  let principal := username +:+ "@" +:+ py_str domain in
  let w2 := after (after w (Spawn Pty (pexpect.split_command_line ("kinit " +:+ principal))))
                  (Sendline password) in
  let r := KerberosAuthenticator.__init__ kh (Some username) (Some password) domain h w in
  ((exists self, r.1 = Ok self) <->
   which h "kinit" = true /\ pty_outcome_of h w2 = PtyExited 0)
  /\ (which h "kinit" = true -> forall sig, pty_outcome_of h w2 = PtySignalled sig ->
      r.1 = Raise (Exception (error_for_principal principal)))
  /\ (which h "kinit" = true -> pty_outcome_of h w2 = PtyTimeout -> r.1 = Raise TIMEOUT).
Proof.
  intros Hu principal w2 r. subst r.
  rewrite init_with_username by done.
  rewrite ticket_for_user_cases. simpl py_str. fold principal. fold w2.
  destruct (which h "kinit").
  - destruct (pty_outcome_of h w2) as [|[|n|n]|sig]; simpl;
      (split; [split; [intros [self Hs]; by try discriminate
                      | intros [_ Ho]; by try discriminate; eauto]|]);
      split; intros; by try discriminate.
  - simpl. split; [split; [intros [self Hs]; discriminate | intros [Hw _]; discriminate]|].
    split; intros; discriminate.
Qed.

Lemma X1_password_init_succeeds_iff_witness :
  ((exists self,
      (KerberosAuthenticator.__init__ None (Some "alice") (Some "secret") (Some "EXAMPLE.COM")
         (machine "posix" "/home/alice" 0 (PtySignalled 9)) fresh).1 = Ok self) <->
   which (machine "posix" "/home/alice" 0 (PtySignalled 9)) "kinit" = true
   /\ PtySignalled 9 = PtyExited 0)
  /\ (which (machine "posix" "/home/alice" 0 (PtySignalled 9)) "kinit" = true ->
      forall sig, PtySignalled 9 = PtySignalled sig ->
      (KerberosAuthenticator.__init__ None (Some "alice") (Some "secret") (Some "EXAMPLE.COM")
         (machine "posix" "/home/alice" 0 (PtySignalled 9)) fresh).1 =
      Raise (Exception (error_for_principal "alice@EXAMPLE.COM")))
  /\ (which (machine "posix" "/home/alice" 0 (PtySignalled 9)) "kinit" = true ->
      PtySignalled 9 = PtyTimeout ->
      (KerberosAuthenticator.__init__ None (Some "alice") (Some "secret") (Some "EXAMPLE.COM")
         (machine "posix" "/home/alice" 0 (PtySignalled 9)) fresh).1 = Raise TIMEOUT).
Proof.
  apply (X1_password_init_succeeds_iff None (Some "EXAMPLE.COM") "alice" "secret"
           (machine "posix" "/home/alice" 0 (PtySignalled 9)) fresh).
  discriminate.
Defined.

(** X2: a construction with a user name logs exactly one error record
    when it raises, whatever made it raise, and none when it returns; the
    record is the same literal for every principal. *)
Theorem X2_password_init_one_error_record_per_failure
    (kh username password domain : pyval) (h : host) (w : world) :
  truthy username = true ->
  let r := KerberosAuthenticator.__init__ kh username password domain h w in
  exists new,
    events r.2 = events w ++ new
    /\ errors new = match r.1 with Ok _ => [] | Raise _ => [error_literal] end.
Proof.
  intros Hu r.
  destruct (password_init_shape kh username password domain h w Hu) as (rest & He & _ & Herr & _).
  eexists. split; [exact He|]. exact Herr.
Qed.

Lemma X2_password_init_one_error_record_per_failure_witness :
  exists new,
    events (KerberosAuthenticator.__init__ None (Some "alice") (Some "secret") (Some "EXAMPLE.COM")
              (machine "posix" "/home/alice" 0 PtyTimeout) fresh).2 = events fresh ++ new
    /\ errors new =
       match (KerberosAuthenticator.__init__ None (Some "alice") (Some "secret")
                (Some "EXAMPLE.COM") (machine "posix" "/home/alice" 0 PtyTimeout) fresh).1 with
       | Ok _ => []
       | Raise _ => [error_literal]
       end.
Proof.
  apply (X2_password_init_one_error_record_per_failure None (Some "alice") (Some "secret")
           (Some "EXAMPLE.COM") (machine "posix" "/home/alice" 0 PtyTimeout) fresh).
  reflexivity.
Defined.

(** X3: whatever the user name, the password and the domain are, a
    construction with a user name starts exactly one process and its
    program is [kinit]: the strings formatted into the command line can add
    arguments but cannot change the program. *)
Theorem X3_password_init_program_is_kinit
    (kh username password domain : pyval) (h : host) (w : world) :
  truthy username = true ->
  exists argv,
    spawned (events (KerberosAuthenticator.__init__ kh username password domain h w).2) =
      spawned (events w) ++ [argv]
    /\ hd "" argv = "kinit".
Proof.
  intros Hu.
  destruct (password_init_shape kh username password domain h w Hu) as (rest & He & Hs & _).
  eexists. split.
  - rewrite He, spawned_app. simpl. by rewrite Hs.
  - apply split_kinit_hd.
Qed.

Lemma X3_password_init_program_is_kinit_witness :
  exists argv,
    spawned (events (KerberosAuthenticator.__init__ None (Some "x' -k -t 'y") (Some "secret")
                       (Some "EXAMPLE.COM") (machine "posix" "/home/alice" 0 (PtyExited 0))
                       fresh).2) =
      spawned (events fresh) ++ [argv]
    /\ hd "" argv = "kinit".
Proof.
  apply (X3_password_init_program_is_kinit None (Some "x' -k -t 'y") (Some "secret")
           (Some "EXAMPLE.COM") (machine "posix" "/home/alice" 0 (PtyExited 0)) fresh).
  reflexivity.
Defined.

(** X4: when a user name is given and the domain is left at its default
    [None], the principal handed to [kinit] is [username@None]. *)
Theorem X4_omitted_domain_is_rendered_None
    (kh password : pyval) (username : string) (h : host) (w : world) :
  username <> "" ->
  plain username = true ->
  spawned (events (KerberosAuthenticator.__init__ kh (Some username) password None h w).2) =
    spawned (events w) ++ [["kinit"; username +:+ "@None"]].
Proof.
  intros Hu Hp.
  assert (Ht : truthy (Some username) = true).
  { simpl. apply negb_true_iff. by apply String.eqb_neq. }
  destruct (password_init_shape kh (Some username) password None h w Ht) as (rest & He & Hs & _).
  rewrite He, spawned_app. simpl. rewrite Hs.
  change ("kinit " +:+ username +:+ "@" +:+ "None") with ("kinit " +:+ (username +:+ "@None")).
  rewrite split_kinit_plain; [done| |].
  - rewrite plain_app, Hp. reflexivity.
  - destruct username; discriminate.
Qed.

Lemma X4_omitted_domain_is_rendered_None_witness :
  spawned (events (KerberosAuthenticator.__init__ None (Some "alice") (Some "secret") None
                     (machine "posix" "/home/alice" 0 (PtyExited 0)) fresh).2) =
    spawned (events fresh) ++ [["kinit"; "alice" +:+ "@None"]].
Proof.
  apply (X4_omitted_domain_is_rendered_None None (Some "secret") "alice"
           (machine "posix" "/home/alice" 0 (PtyExited 0)) fresh).
  - discriminate.
  - reflexivity.
Defined.

(** X5: when a user name is given and the password is left at its default
    [None], [kinit] is still started for the principal, no line is sent to
    it, one error record is logged and construction raises. *)
Theorem X5_missing_password_raises_after_spawn
    (kh domain : pyval) (username : string) (h : host) (w : world) :
  username <> "" ->
  let argv := pexpect.split_command_line ("kinit " +:+ username +:+ "@" +:+ py_str domain) in
  let r := KerberosAuthenticator.__init__ kh (Some username) None domain h w in
  (exists e, r.1 = Raise e)
  /\ events r.2 = events w ++ [Spawn Pty argv; Log ERROR error_literal]
  /\ sent (events r.2) = sent (events w).
Proof.
  intros Hu argv r. subst r.
  rewrite init_with_username by done.
  rewrite ticket_for_user_no_password. simpl py_str. fold argv. simpl.
  split; [eauto|]. rewrite <- app_assoc. split; [done|].
  unfold sent. rewrite omap_app. simpl. by rewrite app_nil_r.
Qed.

Lemma X5_missing_password_raises_after_spawn_witness :
  (exists e,
     (KerberosAuthenticator.__init__ None (Some "alice") None (Some "EXAMPLE.COM")
        (machine "posix" "/home/alice" 0 (PtyExited 0)) fresh).1 = Raise e)
  /\ events (KerberosAuthenticator.__init__ None (Some "alice") None (Some "EXAMPLE.COM")
               (machine "posix" "/home/alice" 0 (PtyExited 0)) fresh).2 =
     events fresh ++ [Spawn Pty ["kinit"; "alice@EXAMPLE.COM"]; Log ERROR error_literal]
  /\ sent (events (KerberosAuthenticator.__init__ None (Some "alice") None (Some "EXAMPLE.COM")
                     (machine "posix" "/home/alice" 0 (PtyExited 0)) fresh).2) =
     sent (events fresh).
Proof.
  apply (X5_missing_password_raises_after_spawn None (Some "EXAMPLE.COM") "alice"
           (machine "posix" "/home/alice" 0 (PtyExited 0)) fresh).
  discriminate.
Defined.

(** ** Ambient construction in full *)

(** X6: a construction without a user name returns exactly when [klist]
    could be started and either returned 0 or, having returned non-zero,
    was followed by a [kinit] that could be started and returned 0. *)
Theorem X6_ambient_init_succeeds_iff
    (kh username password domain : pyval) (h : host) (w : world) :
  truthy username = false ->
  let w1 := after w klist_check in
  let w3 := after (after w1 running_kinit) kinit_fallback in
  (exists self, (KerberosAuthenticator.__init__ kh username password domain h w).1 = Ok self)
  <->
  which h "klist" = true
  /\ (returncode_of h w1 = 0 \/ which h "kinit" = true /\ returncode_of h w3 = 0).
Proof.
  intros Hu w1 w3.
  rewrite init_without_username by done.
  rewrite ambient_ticket_cases. fold w1. fold w3.
  destruct (which h "klist"); [|split; [intros [? ?]; discriminate | intros [? _]; discriminate]].
  destruct (returncode_of h w1 =? 0) eqn:H1.
  { apply Z.eqb_eq in H1. split; [auto | eauto]. }
  apply Z.eqb_neq in H1.
  destruct (which h "kinit").
  - destruct (returncode_of h w3 =? 0) eqn:H3.
    + apply Z.eqb_eq in H3. split; [auto | eauto].
    + apply Z.eqb_neq in H3. split; [intros [? ?]; discriminate|].
      intros [_ [H | [_ H]]]; done.
  - split; [intros [? ?]; discriminate|].
    intros [_ [H | [H _]]]; done.
Qed.

Lemma X6_ambient_init_succeeds_iff_witness :
  (exists self, (KerberosAuthenticator.__init__ None None None None (no_ticket 0) fresh).1 = Ok self)
  <->
  which (no_ticket 0) "klist" = true
  /\ (returncode_of (no_ticket 0) (after fresh klist_check) = 0
      \/ which (no_ticket 0) "kinit" = true
         /\ returncode_of (no_ticket 0)
              (after (after (after fresh klist_check) running_kinit) kinit_fallback) = 0).
Proof.
  apply (X6_ambient_init_succeeds_iff None None None None (no_ticket 0) fresh).
  reflexivity.
Defined.

(** X7: when [klist] cannot be started, a construction without a user
    name raises the [OSError] of that call: the handler for a failed check
    does not apply, so [kinit] is not tried and nothing is logged. *)
Theorem X7_ambient_missing_klist_is_not_a_failed_check
    (kh username password domain : pyval) (h : host) (w : world) :
  truthy username = false ->
  which h "klist" = false ->
  KerberosAuthenticator.__init__ kh username password domain h w =
    (Raise (OSError "klist"), after w klist_check).
Proof.
  intros Hu Hk.
  rewrite init_without_username by done.
  by rewrite ambient_ticket_cases, Hk.
Qed.

Lemma X7_ambient_missing_klist_is_not_a_failed_check_witness :
  KerberosAuthenticator.__init__ None None None None (missing "klist" 0) fresh =
    (Raise (OSError "klist"), after fresh klist_check).
Proof.
  apply (X7_ambient_missing_klist_is_not_a_failed_check None None None None
           (missing "klist" 0) fresh); reflexivity.
Defined.

(** X8: when the check fails and the fallback [kinit] cannot be started,
    construction raises the [OSError] of the fallback and, unlike for a
    [kinit] that returns non-zero, no error record is logged. *)
Theorem X8_ambient_missing_kinit_raises_unlogged
    (kh username password domain : pyval) (h : host) (w : world) :
  truthy username = false ->
  which h "klist" = true ->
  returncode_of h (after w klist_check) <> 0 ->
  which h "kinit" = false ->
  let r := KerberosAuthenticator.__init__ kh username password domain h w in
  r = (Raise (OSError "kinit"),
       after (after (after w klist_check) running_kinit) kinit_fallback)
  /\ errors (events r.2) = errors (events w).
Proof.
  intros Hu Hk Hrc Hkinit r. subst r.
  rewrite init_without_username by done.
  rewrite ambient_ticket_cases, Hk, Hkinit.
  apply Z.eqb_neq in Hrc. rewrite Hrc.
  split; [reflexivity|]. simpl.
  rewrite !errors_app. simpl. by rewrite !app_nil_r.
Qed.

Lemma X8_ambient_missing_kinit_raises_unlogged_witness :
  KerberosAuthenticator.__init__ None None None None (missing "kinit" 0) fresh =
    (Raise (OSError "kinit"),
     after (after (after fresh klist_check) running_kinit) kinit_fallback)
  /\ errors (events (KerberosAuthenticator.__init__ None None None None
                       (missing "kinit" 0) fresh).2) = errors (events fresh).
Proof.
  apply (X8_ambient_missing_kinit_raises_unlogged None None None None
           (missing "kinit" 0) fresh).
  - reflexivity.
  - reflexivity.
  - discriminate.
  - reflexivity.
Defined.

(** ** Keytab construction in full *)

(** X9: off Windows, Keytab construction returns the authenticator
    holding its three arguments exactly when [kinit] could be started and
    returned 0.  Every non-zero return code is turned into the same
    [Exception], which carries neither the code nor the principal; a
    [kinit] that cannot be started surfaces as its own [OSError]. *)
Theorem X9_keytab_init_outcomes
    (username keytab domain : string) (h : host) (w : world) :
  os_name h <> "nt" ->
  let cache := os.path_join (getcwd h) "credentials_cache" in
  let argv := ["kinit"; "-c"; cache; "-kt"; keytab; username +:+ "@" +:+ domain] in
  let w1 := World (<["KRB5CCNAME" := cache]> (environ w)) (events w ++ [Spawn Subprocess argv])
                  (heap w) in
  let r := KeytabAuthenticator.__init__ username keytab domain h w in
  (which h "kinit" = true /\ returncode_of h w1 = 0 <->
   r = (Ok (KeytabAuthenticator.mk username keytab domain), w1))
  /\ (which h "kinit" = true -> returncode_of h w1 <> 0 ->
      r = (Raise (Exception "could not generate a valid ticket for the given keytab"), w1))
  /\ (which h "kinit" = false -> r = (Raise (OSError "kinit"), w1)).
Proof.
  intros Hos cache argv w1 r. subst r.
  rewrite keytab_init_cases. fold cache. fold argv. fold w1.
  apply String.eqb_neq in Hos. rewrite Hos.
  destruct (which h "kinit").
  - destruct (returncode_of h w1 =? 0) eqn:Hrc.
    + apply Z.eqb_eq in Hrc. split; [done|]. split; [|done]. intros _ Hne. by destruct Hne.
    + apply Z.eqb_neq in Hrc. split; [|done]. split; [intros [_ H0]; by destruct Hrc | discriminate].
  - split; [|done]. split; [intros [? _]; discriminate | discriminate].
Qed.

Lemma X9_keytab_init_outcomes_witness :
  (which (machine "posix" "/home/alice" 2 PtyTimeout) "kinit" = true /\ 2 = 0 <->
   KeytabAuthenticator.__init__ "alice" "/etc/alice.keytab" "EXAMPLE.COM"
     (machine "posix" "/home/alice" 2 PtyTimeout) fresh =
   (Ok (KeytabAuthenticator.mk "alice" "/etc/alice.keytab" "EXAMPLE.COM"),
    World (<["KRB5CCNAME" := "/home/alice/credentials_cache"]> ∅)
          [Spawn Subprocess ["kinit"; "-c"; "/home/alice/credentials_cache"; "-kt";
                             "/etc/alice.keytab"; "alice@EXAMPLE.COM"]] []))
  /\ (which (machine "posix" "/home/alice" 2 PtyTimeout) "kinit" = true -> 2 <> 0 ->
      KeytabAuthenticator.__init__ "alice" "/etc/alice.keytab" "EXAMPLE.COM"
        (machine "posix" "/home/alice" 2 PtyTimeout) fresh =
      (Raise (Exception "could not generate a valid ticket for the given keytab"),
       World (<["KRB5CCNAME" := "/home/alice/credentials_cache"]> ∅)
             [Spawn Subprocess ["kinit"; "-c"; "/home/alice/credentials_cache"; "-kt";
                                "/etc/alice.keytab"; "alice@EXAMPLE.COM"]] []))
  /\ (which (machine "posix" "/home/alice" 2 PtyTimeout) "kinit" = false ->
      KeytabAuthenticator.__init__ "alice" "/etc/alice.keytab" "EXAMPLE.COM"
        (machine "posix" "/home/alice" 2 PtyTimeout) fresh =
      (Raise (OSError "kinit"),
       World (<["KRB5CCNAME" := "/home/alice/credentials_cache"]> ∅)
             [Spawn Subprocess ["kinit"; "-c"; "/home/alice/credentials_cache"; "-kt";
                                "/etc/alice.keytab"; "alice@EXAMPLE.COM"]] [])).
Proof.
  apply (X9_keytab_init_outcomes "alice" "/etc/alice.keytab" "EXAMPLE.COM"
           (machine "posix" "/home/alice" 2 PtyTimeout) fresh).
  discriminate.
Defined.

(** X10: Keytab construction touches no environment variable other than
    [KRB5CCNAME], on any platform and whether it returns or raises; off
    Windows it overwrites whatever [KRB5CCNAME] held before. *)
Theorem X10_keytab_init_environment_frame
    (username keytab domain key : string) (h : host) (w : world) :
  key <> "KRB5CCNAME" ->
  let w' := (KeytabAuthenticator.__init__ username keytab domain h w).2 in
  environ w' !! key = environ w !! key
  /\ (os_name h <> "nt" ->
      environ w' !! "KRB5CCNAME" = Some (os.path_join (getcwd h) "credentials_cache")).
Proof.
  intros Hkey w'. subst w'.
  rewrite keytab_init_cases.
  destruct (String.eqb (os_name h) "nt") eqn:Hos.
  - split; [done|]. intros Hne. apply String.eqb_eq in Hos. by destruct Hne.
  - destruct (which h "kinit"); [destruct (returncode_of h _ =? 0)|]; simpl;
      (split; [by rewrite lookup_insert_ne | intros _; by rewrite lookup_insert_eq]).
Qed.

Lemma X10_keytab_init_environment_frame_witness :
  environ (KeytabAuthenticator.__init__ "alice" "/etc/alice.keytab" "EXAMPLE.COM"
             (machine "posix" "/home/alice" 0 PtyTimeout)
             (World {["KRB5CCNAME" := "/tmp/krb5cc_1000"; "HOME" := "/home/alice"]} [] [])).2
    !! "HOME" =
  environ (World {["KRB5CCNAME" := "/tmp/krb5cc_1000"; "HOME" := "/home/alice"]} [] []) !! "HOME"
  /\ (os_name (machine "posix" "/home/alice" 0 PtyTimeout) <> "nt" ->
      environ (KeytabAuthenticator.__init__ "alice" "/etc/alice.keytab" "EXAMPLE.COM"
                 (machine "posix" "/home/alice" 0 PtyTimeout)
                 (World {["KRB5CCNAME" := "/tmp/krb5cc_1000"; "HOME" := "/home/alice"]} [] [])).2
        !! "KRB5CCNAME" =
      Some (os.path_join (getcwd (machine "posix" "/home/alice" 0 PtyTimeout)) "credentials_cache")).
Proof.
  apply (X10_keytab_init_environment_frame "alice" "/etc/alice.keytab" "EXAMPLE.COM" "HOME"
           (machine "posix" "/home/alice" 0 PtyTimeout)
           (World {["KRB5CCNAME" := "/tmp/krb5cc_1000"; "HOME" := "/home/alice"]} [] [])).
  discriminate.
Defined.

(** The world off Windows after Keytab construction, however it ends. *)
Lemma keytab_init_world (username keytab domain : string) (h : host) (w : world) :
  os_name h <> "nt" ->
  let cache := os.path_join (getcwd h) "credentials_cache" in
  let w' := (KeytabAuthenticator.__init__ username keytab domain h w).2 in
  environ w' = <["KRB5CCNAME" := cache]> (environ w)
  /\ events w' =
     events w ++
     [Spawn Subprocess ["kinit"; "-c"; cache; "-kt"; keytab; username +:+ "@" +:+ domain]].
Proof.
  intros Hos cache w'. subst w'.
  rewrite keytab_init_cases. fold cache.
  apply String.eqb_neq in Hos. rewrite Hos.
  destruct (which h "kinit"); [destruct (returncode_of h _ =? 0)|]; done.
Qed.

(** X11: the cache path does not depend on the user, the keytab or the
    domain.  Two Keytab constructions made one after the other in a process
    (on one machine, in one working directory) point [kinit] at the same
    cache file, and the second leaves the environment as the first left
    it. *)
Theorem X11_keytab_constructions_share_the_cache
    (username keytab domain username' keytab' domain' : string) (h : host) (w : world) :
  os_name h <> "nt" ->
  let cache := os.path_join (getcwd h) "credentials_cache" in
  let w1 := (KeytabAuthenticator.__init__ username keytab domain h w).2 in
  let w2 := (KeytabAuthenticator.__init__ username' keytab' domain' h w1).2 in
  environ w2 = environ w1
  /\ spawned (events w2) =
     spawned (events w) ++
     [["kinit"; "-c"; cache; "-kt"; keytab; username +:+ "@" +:+ domain];
      ["kinit"; "-c"; cache; "-kt"; keytab'; username' +:+ "@" +:+ domain']].
Proof.
  intros Hos cache w1 w2.
  destruct (keytab_init_world username keytab domain h w Hos) as (He1 & Hv1).
  destruct (keytab_init_world username' keytab' domain' h w1 Hos) as (He2 & Hv2).
  fold w1 in He1, Hv1. fold w2 in He2, Hv2. fold cache in He1, He2, Hv1, Hv2.
  split.
  - rewrite He2, He1. apply insert_insert_eq.
  - rewrite Hv2, Hv1. rewrite !spawned_app. simpl. by rewrite <- app_assoc.
Qed.

Lemma X11_keytab_constructions_share_the_cache_witness :
  environ (KeytabAuthenticator.__init__ "bob" "/etc/bob.keytab" "CORP"
             (machine "posix" "/home/alice" 0 PtyTimeout)
             (KeytabAuthenticator.__init__ "alice" "/etc/alice.keytab" "EXAMPLE.COM"
                (machine "posix" "/home/alice" 0 PtyTimeout) fresh).2).2 =
  environ (KeytabAuthenticator.__init__ "alice" "/etc/alice.keytab" "EXAMPLE.COM"
             (machine "posix" "/home/alice" 0 PtyTimeout) fresh).2
  /\ spawned (events (KeytabAuthenticator.__init__ "bob" "/etc/bob.keytab" "CORP"
                        (machine "posix" "/home/alice" 0 PtyTimeout)
                        (KeytabAuthenticator.__init__ "alice" "/etc/alice.keytab" "EXAMPLE.COM"
                           (machine "posix" "/home/alice" 0 PtyTimeout) fresh).2).2) =
     spawned (events fresh) ++
     [["kinit"; "-c"; "/home/alice/credentials_cache"; "-kt"; "/etc/alice.keytab";
       "alice@EXAMPLE.COM"];
      ["kinit"; "-c"; "/home/alice/credentials_cache"; "-kt"; "/etc/bob.keytab"; "bob@CORP"]].
Proof.
  apply (X11_keytab_constructions_share_the_cache
           "alice" "/etc/alice.keytab" "EXAMPLE.COM" "bob" "/etc/bob.keytab" "CORP"
           (machine "posix" "/home/alice" 0 PtyTimeout) fresh).
  discriminate.
Defined.

(** X12: the kinit command line of a Keytab construction determines its
    arguments: two constructions that start the same process were given the
    same keytab, and, when neither user name contains [@], the same user
    name and domain. *)
Theorem X12_keytab_command_determines_arguments
    (username keytab domain username' keytab' domain' : string) (h : host) (w : world) :
  os_name h <> "nt" ->
  spawned (events (KeytabAuthenticator.__init__ username keytab domain h w).2) =
  spawned (events (KeytabAuthenticator.__init__ username' keytab' domain' h w).2) ->
  keytab = keytab'
  /\ (occurs "@"%char username = false ->
      occurs "@"%char username' = false ->
      username = username' /\ domain = domain').
Proof.
  intros Hos Heq.
  destruct (keytab_init_world username keytab domain h w Hos) as (_ & Hv).
  destruct (keytab_init_world username' keytab' domain' h w Hos) as (_ & Hv').
  rewrite Hv, Hv', !spawned_app in Heq. simpl in Heq.
  apply app_inv_head in Heq. injection Heq as Hk Hp.
  split; [exact Hk|].
  intros Hu Hu'.
  exact (append_sep_inj "@"%char username username' domain domain' Hu Hu' Hp).
Qed.

Lemma X12_keytab_command_determines_arguments_witness :
  spawned (events (KeytabAuthenticator.__init__ "alice" "/etc/alice.keytab" "EXAMPLE.COM"
                     (machine "posix" "/home/alice" 0 PtyTimeout) fresh).2) =
  spawned (events (KeytabAuthenticator.__init__ "alice" "/etc/alice.keytab" "EXAMPLE.COM"
                     (machine "posix" "/home/alice" 0 PtyTimeout) fresh).2)
  /\ "/etc/alice.keytab" = "/etc/alice.keytab"
  /\ (occurs "@"%char "alice" = false ->
      occurs "@"%char "alice" = false ->
      "alice" = "alice" /\ "EXAMPLE.COM" = "EXAMPLE.COM").
Proof.
  split; [reflexivity|].
  apply (X12_keytab_command_determines_arguments
           "alice" "/etc/alice.keytab" "EXAMPLE.COM" "alice" "/etc/alice.keytab" "EXAMPLE.COM"
           (machine "posix" "/home/alice" 0 PtyTimeout) fresh).
  - discriminate.
  - reflexivity.
Defined.

(** Without the condition on the user names the principal is ambiguous. *)
Example keytab_principal_is_ambiguous :
  spawned (events (KeytabAuthenticator.__init__ "alice@a" "/etc/k" "b"
                     (machine "posix" "/home/alice" 0 PtyTimeout) fresh).2) =
  spawned (events (KeytabAuthenticator.__init__ "alice" "/etc/k" "a@b"
                     (machine "posix" "/home/alice" 0 PtyTimeout) fresh).2).
Proof. reflexivity. Qed.

(** ** Handlers in full *)

(** X13: a host name override given to a successful construction is the
    one the handler is built with, and a falsy one (absent or empty) gives a
    handler without override; the handler is the only object the two steps
    allocate. *)
Theorem X13_hostname_override_reaches_the_handler
    (kh username password domain : pyval) (sess : session) (h : host) (w w1 : world)
    (self : KerberosAuthenticator.t) :
  KerberosAuthenticator.__init__ kh username password domain h w = (Ok self, w1) ->
  get_auth_handler (Kerberos self) sess h w1 =
    (Ok (length (heap w)),
     World (environ w) (events w1)
           (heap w ++ [HTTPKerberosAuth OPTIONAL (if truthy kh then kh else None)])).
Proof.
  intros Hinit.
  destruct (quiet_kerberos_init kh username password domain h w) as [He Hh].
  rewrite Hinit in He, Hh. simpl in He, Hh.
  assert (Hself : KerberosAuthenticator.kerb_hostname self = if truthy kh then kh else None).
  { revert Hinit. unfold KerberosAuthenticator.__init__, bind, ret.
    destruct (if truthy username then _ else _) as [[[]|e] w0]; [|discriminate].
    by intros [= <- _]. }
  unfold get_auth_handler, KerberosAuthenticator.get_auth_handler, new.
  by rewrite Hself, He, Hh.
Qed.

Lemma X13_hostname_override_reaches_the_handler_witness :
  get_auth_handler (Kerberos (KerberosAuthenticator.mk (Some "sts.example.com"))) (Session 0)
    (machine "posix" "/home/alice" 0 (PtyExited 0)) (after fresh klist_check) =
    (Ok (length (heap fresh)),
     World (environ fresh) (events (after fresh klist_check))
           (heap fresh ++ [HTTPKerberosAuth OPTIONAL (Some "sts.example.com")])).
Proof.
  apply (X13_hostname_override_reaches_the_handler (Some "sts.example.com") None None None
           (Session 0) (machine "posix" "/home/alice" 0 (PtyExited 0)) fresh
           (after fresh klist_check) (KerberosAuthenticator.mk (Some "sts.example.com"))).
  reflexivity.
Defined.

(** The identity string [get_auth_handler] formats for the handler. *)
Lemma ntlm_handler_identity (self : NtlmAuthenticator.t) (sess : session) (h : host) (w : world) :
  handler_identity (NtlmAuthenticator.get_auth_handler self sess h w) =
  Some (NtlmAuthenticator.domain self +:+ String backslash (NtlmAuthenticator.username self)).
Proof.
  unfold handler_identity, NtlmAuthenticator.get_auth_handler, new. simpl.
  by rewrite list_lookup_middle.
Qed.

(** X14: the identity string [domain\username] that [get_auth_handler]
    formats determines the account: two authenticators whose domains contain
    no backslash and whose handlers get the same identity string have the
    same domain and the same user name, whatever their passwords, sessions
    and worlds are. *)
Theorem X14_ntlm_identity_determines_the_account
    (a b : NtlmAuthenticator.t) (sess sess' : session) (h h' : host) (w w' : world) :
  occurs backslash (NtlmAuthenticator.domain a) = false ->
  occurs backslash (NtlmAuthenticator.domain b) = false ->
  handler_identity (NtlmAuthenticator.get_auth_handler a sess h w) =
  handler_identity (NtlmAuthenticator.get_auth_handler b sess' h' w') ->
  NtlmAuthenticator.domain a = NtlmAuthenticator.domain b
  /\ NtlmAuthenticator.username a = NtlmAuthenticator.username b.
Proof.
  intros Ha Hb Heq.
  rewrite !ntlm_handler_identity in Heq. injection Heq as Heq.
  exact (append_sep_inj backslash _ _ _ _ Ha Hb Heq).
Qed.

Lemma X14_ntlm_identity_determines_the_account_witness :
  handler_identity (NtlmAuthenticator.get_auth_handler (NtlmAuthenticator.mk "bob" "pw" "CORP")
                      (Session 1) (machine "posix" "/home/alice" 0 PtyTimeout) fresh) =
  Some "CORP\bob"
  /\ NtlmAuthenticator.domain (NtlmAuthenticator.mk "bob" "pw" "CORP") =
     NtlmAuthenticator.domain (NtlmAuthenticator.mk "bob" "other" "CORP")
  /\ NtlmAuthenticator.username (NtlmAuthenticator.mk "bob" "pw" "CORP") =
     NtlmAuthenticator.username (NtlmAuthenticator.mk "bob" "other" "CORP").
Proof.
  split; [reflexivity|].
  apply (X14_ntlm_identity_determines_the_account
           (NtlmAuthenticator.mk "bob" "pw" "CORP") (NtlmAuthenticator.mk "bob" "other" "CORP")
           (Session 1) (Session 2)
           (machine "posix" "/home/alice" 0 PtyTimeout) (machine "posix" "/tmp" 0 PtyTimeout)
           fresh (after fresh klist_check)); reflexivity.
Defined.

(** With a backslash in the domain two different accounts share an
    identity string. *)
Example ntlm_identity_is_ambiguous (h : host) (w : world) :
  handler_identity (NtlmAuthenticator.get_auth_handler (NtlmAuthenticator.mk "c" "pw" "a\b")
                      (Session 0) h w) =
  handler_identity (NtlmAuthenticator.get_auth_handler (NtlmAuthenticator.mk "b\c" "pw" "a")
                      (Session 0) h w).
Proof. by rewrite !ntlm_handler_identity. Qed.

(** X15: the three type identifiers are pairwise different, so
    [get_auth_type] tells which class a strategy belongs to. *)
Theorem X15_get_auth_type_identifies_the_class (self : Authenticator) :
  (get_auth_type self = "kerberos" <-> exists k, self = Kerberos k)
  /\ (get_auth_type self = "ntlm" <-> exists n, self = Ntlm n)
  /\ (get_auth_type self = "keytab" <-> exists t, self = Keytab t).
Proof.
  destruct self as [k|n|t]; simpl;
    (split; [|split]); (split; [intros H; by try discriminate; eauto | intros [? H]; by try discriminate]).
Qed.

(** X16: constructing a [KerberosAuthenticator], by either path and
    whether it returns or raises, leaves every environment variable as it
    was and allocates no handler: a [KRB5CCNAME] set by an earlier Keytab
    construction is still in force afterwards. *)
Theorem X16_kerberos_init_leaves_the_environment
    (kh username password domain : pyval) (user keytab realm : string) (h : host) (w : world) :
  let w1 := (KeytabAuthenticator.__init__ user keytab realm h w).2 in
  environ (KerberosAuthenticator.__init__ kh username password domain h w).2 = environ w
  /\ heap (KerberosAuthenticator.__init__ kh username password domain h w).2 = heap w
  /\ environ (KerberosAuthenticator.__init__ kh username password domain h w1).2 !! "KRB5CCNAME" =
     environ w1 !! "KRB5CCNAME".
Proof.
  intros w1.
  destruct (quiet_kerberos_init kh username password domain h w) as [He Hh].
  destruct (quiet_kerberos_init kh username password domain h w1) as [He1 _].
  by rewrite He, Hh, He1.
Qed.
